(** * The assessments router (api/routers/assessments.py)

    A shallow embedding of the route handlers of the assessment-session
    router.  Every handler is a small program that may await the
    assessment service, run the one direct database query of the module,
    raise an HTTP error or return a value.  The service, the ORM models and
    the request schemas live in other modules of the application; the
    handlers are written here against their interface only, so every
    theorem holds for whatever implementation is wired in. *)

From Stdlib Require Import List String Ascii ZArith NArith Bool Lia.
From Stdlib Require Import Floats.PrimFloat.
Import ListNotations.
Local Open Scope string_scope.
Local Open Scope list_scope.

(** ** Python values *)

Module Py.

#[local] Set Warnings "-register-all".

(** The values a decoded JSON body or a JSON column can hold. *)
Inductive value : Type :=
| VNone
| VBool (b : bool)
| VInt (n : Z)
| VFloat (x : float)
| VStr (s : string)
| VList (l : list value)
| VDict (d : list (string * value)).

(** Python's truth value testing, as used by [if x:] and [not x]. *)
Definition truthy (v : value) : bool :=
  match v with
  | VNone => false
  | VBool b => b
  | VInt n => negb (Z.eqb n 0)
  | VFloat x => negb (PrimFloat.eqb x PrimFloat.zero)
  | VStr s => negb (String.eqb s "")
  | VList l => match l with [] => false | _ :: _ => true end
  | VDict d => match d with [] => false | _ :: _ => true end
  end.

(** A dict is kept as its items, in insertion order. [lookup] is the
    presence test together with the bound value. *)
Fixpoint lookup (key : string) (d : list (string * value)) : option value :=
  match d with
  | [] => None
  | (k, v) :: rest => if String.eqb k key then Some v else lookup key rest
  end.

(** [d.get(key)]: the bound value, [None] when the key is missing. *)
Definition get (key : string) (d : list (string * value)) : value :=
  match lookup key d with
  | Some v => v
  | None => VNone
  end.

(** [sub in s] on strings: [sub] occurs somewhere in [s]. *)
Fixpoint str_in (sub s : string) : bool :=
  String.prefix sub s
  || match s with
     | EmptyString => false
     | String _ rest => str_in sub rest
     end.

End Py.

Import Py.

(** ** Exceptions and outcomes *)

Definition HTTP_201_CREATED : Z := 201.
Definition HTTP_400_BAD_REQUEST : Z := 400.
Definition HTTP_404_NOT_FOUND : Z := 404.

(** [HTTPException] is what the handlers raise themselves; anything else
    a collaborator raises travels through a handler untouched. *)
Inductive exn : Type :=
| HTTPException (status_code : Z) (detail : string)
| OtherError (message : string).

(** How a call ends. *)
Inductive outcome (A : Type) : Type :=
| Returned (a : A)
| Raised (e : exn).
Arguments Returned {A} a.
Arguments Raised {A} e.

(** ** Request and response models declared in the router *)

Record QuickAssessmentRequest : Type := {
  qr_business_profile_id : string;
  qr_assessment_type : string;
  industry_standard : bool
}.

Record FrameworkInfo : Type := {
  fi_name : string;
  fi_description : string
}.

Record QuickRecommendation : Type := {
  framework : FrameworkInfo;
  priority : string;
  description : string
}.

Record QuickAssessmentResponse : Type := {
  recommendations : list QuickRecommendation
}.

(** ** Models and schemas defined elsewhere in the application

    [UserWithRoles] comes from the authorisation dependency,
    [AssessmentSession] and [ComplianceFramework] are ORM models and
    [AssessmentQuestion] is a response schema.  The handlers read one
    attribute of a session, [session.recommendations] (a JSON column), and
    render a framework id with [str]; nothing else about them is used. *)

Class Models : Type := {
  UserWithRoles : Type;
  AssessmentSession : Type;
  AssessmentQuestion : Type;
  FrameworkId : Type;
  session_recommendations : AssessmentSession -> value;
  str : FrameworkId -> string
}.

Definition UUID : Type := N.

(** Request schemas of api.schemas.models: the attributes the handlers
    read, kept as Python values since they are only handed on. *)
Record AssessmentSessionCreate : Type := {
  session_type : value;
  business_profile_id : value
}.

Record AssessmentResponseUpdate : Type := {
  question_id : value;
  response : value
}.

Record ComplianceFramework `{Models} : Type := {
  cf_id : FrameworkId;
  cf_name : string;
  cf_description : value;
  is_active : bool
}.

(** ** The assessment service, as the handlers see it *)

Module AssessmentService.
Section Interface.
Context `{Models}.

(** One constructor per method the router calls, with the arguments
    passed after the database handle. *)
Inductive call : Type :=
| get_user_assessment_sessions (user : UserWithRoles)
| start_assessment_session (user : UserWithRoles) (session_type business_profile_id : value)
| get_current_assessment_session (user : UserWithRoles)
| get_assessment_questions (user : UserWithRoles) (stage : Z)
| update_assessment_response (user : UserWithRoles) (session_id : UUID) (question_id response : value)
| get_assessment_session (user : UserWithRoles) (session_id : UUID)
| complete_assessment_session (user : UserWithRoles) (session_id : UUID).

(** What a method hands back: a session object or [None] where a session
    is looked up or produced, a list otherwise. *)
Definition result (c : call) : Type :=
  match c with
  | get_user_assessment_sessions _ => list AssessmentSession
  | get_assessment_questions _ _ => list AssessmentQuestion
  | start_assessment_session _ _ _
  | get_current_assessment_session _
  | update_assessment_response _ _ _ _
  | get_assessment_session _ _
  | complete_assessment_session _ _ => option AssessmentSession
  end.

End Interface.
End AssessmentService.

(** ** Handler programs *)

Section Handlers.
Context `{Models}.

(** A handler body: it returns, raises, awaits a service method, or
    executes [select(ComplianceFramework).where(p)] on the database
    handle and takes all rows. *)
Inductive Handler (A : Type) : Type :=
| Return (a : A)
| Raise (e : exn)
| Await (c : AssessmentService.call) (k : AssessmentService.result c -> Handler A)
| Execute (where_ : ComplianceFramework -> bool)
          (k : list ComplianceFramework -> Handler A).

End Handlers.

Arguments Return {_ A} a.
Arguments Raise {_ A} e.
Arguments Await {_ A} c k.
Arguments Execute {_ A} where_ k.

Notation "x <- 'await' c ;; k" := (Await c (fun x => k))
  (at level 61, c at next level, right associativity).
Notation "x <- 'execute_select_where' p ;; k" := (Execute p (fun x => k))
  (at level 61, p at next level, right associativity).

(** [session] and [not session] on an object that is either an ORM row or
    [None]: a row is always true. *)
Definition is_session {S : Type} (session : option S) : bool :=
  match session with
  | Some _ => true
  | None => false
  end.

Section Router.
Context `{Models}.

(** *** POST /quick *)

Definition gdpr_recommendation : QuickRecommendation :=
  {| framework := {| fi_name := "GDPR (General Data Protection Regulation)";
                     fi_description := "EU data protection regulation" |};
     priority := "high";
     description := "Essential for businesses handling personal data of EU residents" |}.

Definition iso27001_recommendation : QuickRecommendation :=
  {| framework := {| fi_name := "ISO 27001";
                     fi_description := "Information security management standard" |};
     priority := "medium";
     description := "Industry standard for information security management" |}.

Definition soc2_recommendation : QuickRecommendation :=
  {| framework := {| fi_name := "SOC 2";
                     fi_description := "Security and availability controls" |};
     priority := "medium";
     description := "Important for service organizations handling customer data" |}.

(** The list starts empty, GDPR is appended, and the two industry entries
    are appended under the flag. *)
Definition quick_assessment (request : QuickAssessmentRequest)
    (current_user : UserWithRoles) : Handler QuickAssessmentResponse :=
  let recommendations := [] ++ [gdpr_recommendation] in
  let recommendations :=
    if industry_standard request
    then (recommendations ++ [iso27001_recommendation]) ++ [soc2_recommendation]
    else recommendations in
  Return {| recommendations := recommendations |}.

(** *** Session routes *)

Definition list_assessments (current_user : UserWithRoles)
    : Handler (list AssessmentSession) :=
  sessions <- await AssessmentService.get_user_assessment_sessions current_user ;;
  Return sessions.

Definition create_assessment (session_data : AssessmentSessionCreate)
    (current_user : UserWithRoles) : Handler (option AssessmentSession) :=
  session <- await AssessmentService.start_assessment_session current_user
               (session_type session_data) (business_profile_id session_data) ;;
  Return session.

Definition start_assessment (session_data : AssessmentSessionCreate)
    (current_user : UserWithRoles) : Handler (option AssessmentSession) :=
  session <- await AssessmentService.start_assessment_session current_user
               (session_type session_data) (business_profile_id session_data) ;;
  Return session.

Definition get_current_session (current_user : UserWithRoles)
    : Handler (option AssessmentSession) :=
  session <- await AssessmentService.get_current_assessment_session current_user ;;
  if negb (is_session session)
  then Raise (HTTPException HTTP_404_NOT_FOUND "No active assessment session")
  else Return session.

Definition get_questions (stage : Z) (current_user : UserWithRoles)
    : Handler (list AssessmentQuestion) :=
  questions <- await AssessmentService.get_assessment_questions current_user stage ;;
  Return questions.

Definition update_response (session_id : UUID)
    (response_data : AssessmentResponseUpdate) (current_user : UserWithRoles)
    : Handler (option AssessmentSession) :=
  session <- await AssessmentService.update_assessment_response current_user
               session_id (question_id response_data) (response response_data) ;;
  Return session.

Definition question_id_required : exn :=
  HTTPException HTTP_400_BAD_REQUEST "question_id is required".

Definition update_responses (session_id : UUID)
    (response_data : list (string * value)) (current_user : UserWithRoles)
    : Handler (option AssessmentSession) :=
  let question_id := Py.get "question_id" response_data in
  let response := Py.get "response" response_data in
  if negb (truthy question_id)
  then Raise question_id_required
  else
    session <- await AssessmentService.update_assessment_response current_user
                 session_id question_id response ;;
    Return session.

Definition get_assessment_session (session_id : UUID)
    (current_user : UserWithRoles) : Handler (option AssessmentSession) :=
  session <- await AssessmentService.get_assessment_session current_user session_id ;;
  if negb (is_session session)
  then Raise (HTTPException HTTP_404_NOT_FOUND "Assessment session not found")
  else Return session.

(** *** GET /{session_id}/recommendations *)

(** The dict appended for one framework, [priority] already chosen. *)
Definition recommendation_entry (framework : ComplianceFramework)
    (priority : string) : value :=
  VDict [ ("framework",
           VDict [ ("id", VStr (str (cf_id framework)));
                   ("name", VStr (cf_name framework));
                   ("description", cf_description framework) ]);
          ("priority", VStr priority);
          ("description", VStr "Recommended based on your business profile") ].

(** One turn of the loop over the frameworks. *)
Definition append_if_recommended (recommendations : list value)
    (framework : ComplianceFramework) : list value :=
  if str_in "GDPR" (cf_name framework) || str_in "ISO" (cf_name framework)
  then
    let priority := if str_in "GDPR" (cf_name framework) then "High" else "Medium" in
    recommendations ++ [recommendation_entry framework priority]
  else recommendations.

Definition generated_recommendations (frameworks : list ComplianceFramework)
    : list value :=
  fold_left append_if_recommended frameworks [].

(** The session is looked up first; the frameworks are read before the
    session's own recommendations are examined. *)
Definition get_assessment_recommendations (session_id : UUID)
    (current_user : UserWithRoles) : Handler value :=
  session <- await AssessmentService.get_assessment_session current_user session_id ;;
  match session with
  | None => Raise (HTTPException HTTP_404_NOT_FOUND "Assessment session not found")
  | Some session =>
      frameworks <- execute_select_where is_active ;;
      let recommendations :=
        if truthy (session_recommendations session)
        then session_recommendations session
        else VList (generated_recommendations frameworks) in
      Return (VDict [("recommendations", recommendations)])
  end.

Definition complete_assessment (session_id : UUID)
    (current_user : UserWithRoles) : Handler (option AssessmentSession) :=
  session <- await AssessmentService.complete_assessment_session current_user session_id ;;
  Return session.

(** ** Running a handler against a backend *)

(** What happened during a request, in order. *)
Inductive event : Type :=
| Awaited (c : AssessmentService.call)
| Executed.

(** A backend over database states [DB]: each service method maps the
    state to how the call ends and the state it leaves, and the framework
    table can be read. *)
Record Backend (DB : Type) : Type := {
  service : forall c : AssessmentService.call,
      DB -> outcome (AssessmentService.result c) * DB;
  compliance_frameworks : DB -> list ComplianceFramework
}.
Arguments service {DB} _ c _.
Arguments compliance_frameworks {DB} _ _.

(** The outcome of a request, the database state after it and the trace
    of what the handler did. An exception of the service ends the request
    with that exception. The framework query is taken as a read of the
    table that succeeds; a failing database is not part of this model. *)
Fixpoint run {DB A : Type} (backend : Backend DB) (h : Handler A) (db : DB)
    : outcome A * DB * list event :=
  match h with
  | Return a => (Returned a, db, [])
  | Raise e => (Raised e, db, [])
  | Await c k =>
      match service backend c db with
      | (Returned r, db1) =>
          let '(o, db2, trace) := run backend (k r) db1 in
          (o, db2, Awaited c :: trace)
      | (Raised e, db1) => (Raised e, db1, [Awaited c])
      end
  | Execute where_ k =>
      let rows := filter where_ (compliance_frameworks backend db) in
      let '(o, db1, trace) := run backend (k rows) db in
      (o, db1, Executed :: trace)
  end.

End Router.

Arguments service {_ DB} _ c _.
Arguments compliance_frameworks {_ DB} _ _.

(** ** Route table *)

Record Route : Type := {
  method : string;
  path : string;
  status_code : Z;
  permission : string
}.

Definition HTTP_200_OK : Z := 200.

Definition quick_assessment_route : Route :=
  {| method := "POST"; path := "/quick";
     status_code := HTTP_200_OK; permission := "assessment_create" |}.
Definition list_assessments_route : Route :=
  {| method := "GET"; path := "/";
     status_code := HTTP_200_OK; permission := "assessment_list" |}.
Definition create_assessment_route : Route :=
  {| method := "POST"; path := "/";
     status_code := HTTP_201_CREATED; permission := "assessment_create" |}.
Definition start_assessment_route : Route :=
  {| method := "POST"; path := "/start";
     status_code := HTTP_201_CREATED; permission := "assessment_create" |}.
Definition get_current_session_route : Route :=
  {| method := "GET"; path := "/current";
     status_code := HTTP_200_OK; permission := "assessment_list" |}.
Definition get_questions_route : Route :=
  {| method := "GET"; path := "/questions/{stage}";
     status_code := HTTP_200_OK; permission := "assessment_list" |}.
Definition update_response_route : Route :=
  {| method := "PUT"; path := "/{session_id}/response";
     status_code := HTTP_200_OK; permission := "assessment_update" |}.
Definition update_responses_route : Route :=
  {| method := "POST"; path := "/{session_id}/responses";
     status_code := HTTP_200_OK; permission := "assessment_update" |}.
Definition get_assessment_session_route : Route :=
  {| method := "GET"; path := "/{session_id}";
     status_code := HTTP_200_OK; permission := "assessment_list" |}.
Definition get_assessment_recommendations_route : Route :=
  {| method := "GET"; path := "/{session_id}/recommendations";
     status_code := HTTP_200_OK; permission := "assessment_list" |}.
Definition complete_assessment_route : Route :=
  {| method := "POST"; path := "/{session_id}/complete";
     status_code := HTTP_200_OK; permission := "assessment_update" |}.

(** ** An in-memory backend *)

Module InMemory.

(** Modelled from the spec: the session store and the assessment service
    (services/assessment_service.py and the ORM models are not part of
    this module).  A session has an id, an owning user, a business
    profile, a session type, its responses, an optional recommendations
    list and a completion state; every read and write is scoped to the
    requesting user's sessions; an update overwrites the earlier response
    to the same question.  A session that is absent or not owned by the
    caller is reported as Not-Found: the two lookups hand back [None],
    which the handlers turn into the 404, and complete, which the router
    does not check, answers Not-Found itself, as does update. *)
Record Session : Type := {
  s_id : UUID;
  s_user : string;
  s_business_profile_id : value;
  s_session_type : value;
  s_responses : list (string * value);
  s_recommendations : value;
  s_completed : bool
}.

#[global] Instance models : Models := {|
  UserWithRoles := string;
  AssessmentSession := Session;
  AssessmentQuestion := string;
  FrameworkId := string;
  session_recommendations := s_recommendations;
  str := fun id => id
|}.

Record DB : Type := {
  sessions : list Session;
  frameworks : list ComplianceFramework
}.

Definition owned (user : string) (session_id : UUID) (s : Session) : bool :=
  N.eqb (s_id s) session_id && String.eqb (s_user s) user.

Definition find_session (user : string) (session_id : UUID) (db : DB)
    : option Session :=
  find (owned user session_id) (sessions db).

Fixpoint upsert (key : string) (v : value) (d : list (string * value))
    : list (string * value) :=
  match d with
  | [] => [(key, v)]
  | (k, w) :: rest =>
      if String.eqb k key then (k, v) :: rest else (k, w) :: upsert key v rest
  end.

Definition key_of (question_id : value) : string :=
  match question_id with
  | VStr s => s
  | _ => ""
  end.

(** Replaces the stored session that [user] owns under [session_id]. *)
Definition store (user : string) (session_id : UUID) (s' : Session) (db : DB) : DB :=
  {| sessions := map (fun s => if owned user session_id s then s' else s) (sessions db);
     frameworks := frameworks db |}.

Definition with_response (question_id response : value) (s : Session) : Session :=
  {| s_id := s_id s; s_user := s_user s;
     s_business_profile_id := s_business_profile_id s;
     s_session_type := s_session_type s;
     s_responses := upsert (key_of question_id) response (s_responses s);
     s_recommendations := s_recommendations s;
     s_completed := s_completed s |}.

Definition completed (s : Session) : Session :=
  {| s_id := s_id s; s_user := s_user s;
     s_business_profile_id := s_business_profile_id s;
     s_session_type := s_session_type s;
     s_responses := s_responses s;
     s_recommendations := s_recommendations s;
     s_completed := true |}.

Definition new_session (db : DB) (user : string) (session_type profile : value)
    : Session :=
  {| s_id := N.of_nat (S (List.length (sessions db))); s_user := user;
     s_business_profile_id := profile; s_session_type := session_type;
     s_responses := []; s_recommendations := VNone; s_completed := false |}.

(** The error with which the service answers for a session it cannot find
    for the caller. *)
Definition session_not_found : exn :=
  HTTPException HTTP_404_NOT_FOUND "Assessment session not found".

(** Modelled from the spec: the methods of the assessment service over
    the store above (list for the user, start, current, questions by
    stage, update response, get by id, complete).  Update and complete
    raise Not-Found for a session that is absent or not owned by the
    caller.  The question bank is left empty. *)
Definition serve (c : AssessmentService.call) (db : DB)
    : outcome (AssessmentService.result c) * DB :=
  match c return outcome (AssessmentService.result c) * DB with
  | AssessmentService.get_user_assessment_sessions user =>
      (Returned (filter (fun s => String.eqb (s_user s) user) (sessions db)), db)
  | AssessmentService.start_assessment_session user session_type profile =>
      let s := new_session db user session_type profile in
      (Returned (Some s),
       {| sessions := sessions db ++ [s]; frameworks := frameworks db |})
  | AssessmentService.get_current_assessment_session user =>
      (Returned (find (fun s => String.eqb (s_user s) user && negb (s_completed s))
                      (rev (sessions db))), db)
  | AssessmentService.get_assessment_questions user stage => (Returned [], db)
  | AssessmentService.update_assessment_response user session_id question_id response =>
      match find_session user session_id db with
      | Some s =>
          let s' := with_response question_id response s in
          (Returned (Some s'), store user session_id s' db)
      | None => (Raised session_not_found, db)
      end
  | AssessmentService.get_assessment_session user session_id =>
      (Returned (find_session user session_id db), db)
  | AssessmentService.complete_assessment_session user session_id =>
      match find_session user session_id db with
      | Some s =>
          let s' := completed s in
          (Returned (Some s'), store user session_id s' db)
      | None => (Raised session_not_found, db)
      end
  end.

Definition backend : Backend DB :=
  {| service := serve; compliance_frameworks := frameworks |}.

(** Sample data: two users with one session each and four frameworks, one
    of them inactive. *)
Definition alice_session : Session :=
  {| s_id := 1%N; s_user := "alice"; s_business_profile_id := VStr "bp-1";
     s_session_type := VStr "compliance_scoping"; s_responses := [];
     s_recommendations := VList []; s_completed := false |}.

Definition bob_session : Session :=
  {| s_id := 2%N; s_user := "bob"; s_business_profile_id := VStr "bp-2";
     s_session_type := VStr "compliance_scoping"; s_responses := [];
     s_recommendations := VList [VDict [("priority", VStr "Low")]];
     s_completed := false |}.

Definition framework_row (id name : string) (active : bool) : ComplianceFramework :=
  {| cf_id := id; cf_name := name; cf_description := VStr "about " ; is_active := active |}.

Definition sample_db : DB :=
  {| sessions := [alice_session; bob_session];
     frameworks := [ framework_row "f1" "GDPR Foo" true;
                     framework_row "f2" "Privacy Act" true;
                     framework_row "f3" "ISO 9000" true;
                     framework_row "f4" "ISO 27001" false;
                     framework_row "f5" "Other" true ] |}.

End InMemory.

(** ** The fallback rule in the words of the specification *)

Section FallbackRule.
Context `{Models}.

(** [sub] occurs in [s]: [s] is some text, then [sub], then some text. *)
Definition contains (s sub : string) : Prop :=
  exists before after : string, s = (before ++ sub ++ after)%string.

(** A framework is recommended when its name contains GDPR or ISO. *)
Definition spec_recommended (framework : ComplianceFramework) : bool :=
  str_in "GDPR" (cf_name framework) || str_in "ISO" (cf_name framework).

(** GDPR gives High; ISO (without GDPR) gives Medium. *)
Definition spec_priority (framework : ComplianceFramework) : string :=
  if str_in "GDPR" (cf_name framework) then "High" else "Medium".

(** One entry per recommended framework, in the order of the query, the
    others left out. *)
Definition spec_synthesized (frameworks : list ComplianceFramework) : list value :=
  map (fun framework => recommendation_entry framework (spec_priority framework))
      (filter spec_recommended frameworks).

End FallbackRule.

(** ** The router as a whole *)

(** A request the router accepts, named by its route, with the path and
    body parameters the handler receives. *)
Inductive request : Type :=
| POST_quick (body : QuickAssessmentRequest)
| GET_root
| POST_root (session_data : AssessmentSessionCreate)
| POST_start (session_data : AssessmentSessionCreate)
| GET_current
| GET_questions (stage : Z)
| PUT_response (session_id : UUID) (response_data : AssessmentResponseUpdate)
| POST_responses (session_id : UUID) (response_data : list (string * value))
| GET_session (session_id : UUID)
| GET_recommendations (session_id : UUID)
| POST_complete (session_id : UUID).

(** The decorator of the function that serves the request. *)
Definition route_of (r : request) : Route :=
  match r with
  | POST_quick _ => quick_assessment_route
  | GET_root => list_assessments_route
  | POST_root _ => create_assessment_route
  | POST_start _ => start_assessment_route
  | GET_current => get_current_session_route
  | GET_questions _ => get_questions_route
  | PUT_response _ _ => update_response_route
  | POST_responses _ _ => update_responses_route
  | GET_session _ => get_assessment_session_route
  | GET_recommendations _ => get_assessment_recommendations_route
  | POST_complete _ => complete_assessment_route
  end.

Section Dispatch.
Context `{Models}.

Definition response_type (r : request) : Type :=
  match r with
  | POST_quick _ => QuickAssessmentResponse
  | GET_root => list AssessmentSession
  | GET_questions _ => list AssessmentQuestion
  | GET_recommendations _ => value
  | POST_root _ | POST_start _ | GET_current | PUT_response _ _
  | POST_responses _ _ | GET_session _ | POST_complete _ => option AssessmentSession
  end.

(** The function the router calls for the request, the caller already
    admitted by the permission dependency. *)
Definition handler_of (r : request) (current_user : UserWithRoles)
    : Handler (response_type r) :=
  match r return Handler (response_type r) with
  | POST_quick body => quick_assessment body current_user
  | GET_root => list_assessments current_user
  | POST_root session_data => create_assessment session_data current_user
  | POST_start session_data => start_assessment session_data current_user
  | GET_current => get_current_session current_user
  | GET_questions stage => get_questions stage current_user
  | PUT_response session_id response_data =>
      update_response session_id response_data current_user
  | POST_responses session_id response_data =>
      update_responses session_id response_data current_user
  | GET_session session_id => get_assessment_session session_id current_user
  | GET_recommendations session_id =>
      get_assessment_recommendations session_id current_user
  | POST_complete session_id => complete_assessment session_id current_user
  end.

(** The permission under which each service method is reached. *)
Definition permission_of (c : AssessmentService.call) : string :=
  match c with
  | AssessmentService.get_user_assessment_sessions _
  | AssessmentService.get_current_assessment_session _
  | AssessmentService.get_assessment_questions _ _
  | AssessmentService.get_assessment_session _ _ => "assessment_list"
  | AssessmentService.start_assessment_session _ _ _ => "assessment_create"
  | AssessmentService.update_assessment_response _ _ _ _
  | AssessmentService.complete_assessment_session _ _ => "assessment_update"
  end.

(** The user on whose behalf a service method is called. *)
Definition call_user (c : AssessmentService.call) : UserWithRoles :=
  match c with
  | AssessmentService.get_user_assessment_sessions user
  | AssessmentService.start_assessment_session user _ _
  | AssessmentService.get_current_assessment_session user
  | AssessmentService.get_assessment_questions user _
  | AssessmentService.update_assessment_response user _ _ _
  | AssessmentService.get_assessment_session user _
  | AssessmentService.complete_assessment_session user _ => user
  end.

(** The session a service method is asked about, if any. *)
Definition call_session_id (c : AssessmentService.call) : option UUID :=
  match c with
  | AssessmentService.update_assessment_response _ session_id _ _
  | AssessmentService.get_assessment_session _ session_id
  | AssessmentService.complete_assessment_session _ session_id => Some session_id
  | _ => None
  end.

(** The [session_id] path parameter of a request, if its route has one. *)
Definition request_session_id (r : request) : option UUID :=
  match r with
  | PUT_response session_id _
  | POST_responses session_id _
  | GET_session session_id
  | GET_recommendations session_id
  | POST_complete session_id => Some session_id
  | _ => None
  end.

(** The priority under which a synthesized entry is filed. *)
Definition entry_priority (entry : value) : value :=
  match entry with
  | VDict d => Py.get "priority" d
  | _ => VNone
  end.

End Dispatch.

(** * Properties *)

(** ** Python values *)

Lemma prefix_app (sub s : string) :
  String.prefix sub s = true <-> exists after, s = (sub ++ after)%string.
Proof.
  revert s; induction sub as [|a sub IH]; intros s.
  - destruct s; simpl; (split; [intros _; eexists; reflexivity | reflexivity]).
  - destruct s as [|b s]; simpl.
    + split; [discriminate | intros [after E]; discriminate].
    + destruct (Ascii.ascii_dec a b) as [->|Hne].
      * rewrite IH. split; intros [after E]; exists after.
        -- now rewrite E.
        -- now injection E.
      * split; [discriminate |].
        intros [after E]. injection E as E1 _. now elim Hne.
Qed.

Lemma str_in_contains (sub s : string) :
  str_in sub s = true <-> contains s sub.
Proof.
  unfold contains. induction s as [|b s IH]; cbn [str_in].
  - rewrite orb_false_r, prefix_app. split.
    + intros [after E]. now exists "", after.
    + intros [[|c before] [after E]]; simpl in E; [now exists after | discriminate].
  - rewrite orb_true_iff, prefix_app, IH. split.
    + intros [[after E] | [before [after E]]].
      * now exists "", after.
      * exists (String b before), after. simpl. now rewrite E.
    + intros [[|c before] [after E]]; simpl in E.
      * left. now exists after.
      * right. injection E as _ E. now exists before, after.
Qed.

Lemma truthy_list (l : list value) : truthy (VList l) = true <-> l <> [].
Proof. destruct l; simpl; split; congruence. Qed.

Lemma falsy_values :
  Forall (fun v => truthy v = false)
         [VNone; VBool false; VInt 0; VFloat 0%float; VStr ""; VList []; VDict []].
Proof. repeat constructor. Qed.

Lemma get_absent (key : string) (d : list (string * value)) :
  lookup key d = None -> Py.get key d = VNone.
Proof. unfold Py.get. now intros ->. Qed.

Lemma get_present (key : string) (d : list (string * value)) (v : value) :
  lookup key d = Some v -> Py.get key d = v.
Proof. unfold Py.get. now intros ->. Qed.

(** ** POST /quick *)

Section QuickAssessment.
Context `{Models}.

(** C1. POST /quick always answers, and the answer lists exactly one
    recommendation when [industry_standard] is false, the GDPR framework
    (named "GDPR (General Data Protection Regulation)") with priority
    "high", and exactly three when it is true: GDPR ("high"), then
    ISO 27001 ("medium"), then SOC 2 ("medium"), in this order. *)
Theorem quick_assessment_recommendations
    (request : QuickAssessmentRequest) (current_user : UserWithRoles) :
  exists response : QuickAssessmentResponse,
    quick_assessment request current_user = Return response
    /\ List.length (recommendations response)
       = (if industry_standard request then 3 else 1)%nat
    /\ map (fun r => (fi_name (framework r), priority r)) (recommendations response)
       = (if industry_standard request
          then [ ("GDPR (General Data Protection Regulation)", "high");
                 ("ISO 27001", "medium");
                 ("SOC 2", "medium") ]
          else [ ("GDPR (General Data Protection Regulation)", "high") ])
    /\ Forall (fun r => contains (fi_name (framework r)) "GDPR")
              (firstn 1 (recommendations response)).
Proof.
  unfold quick_assessment.
  destruct (industry_standard request); eexists; (split; [reflexivity|]);
    cbn; (repeat split; try reflexivity);
    repeat constructor; apply str_in_contains; reflexivity.
Qed.

(** C7. The answer of POST /quick depends on the [industry_standard] flag
    alone: two requests with the same flag get the same answer, whatever
    their business profile id, their assessment type and the caller; the
    handler returns (it raises nothing), awaits neither the service nor
    the database, and leaves the database state as it was. *)
Theorem quick_assessment_flag_only
    (request1 request2 : QuickAssessmentRequest) (user1 user2 : UserWithRoles)
    (DB : Type) (backend : Backend DB) (db : DB) :
  industry_standard request1 = industry_standard request2 ->
  quick_assessment request1 user1 = quick_assessment request2 user2
  /\ exists response : QuickAssessmentResponse,
       quick_assessment request1 user1 = Return response
       /\ run backend (quick_assessment request1 user1) db = (Returned response, db, [])
       /\ run backend (quick_assessment request2 user2) db = (Returned response, db, []).
Proof.
  intros Hflag. unfold quick_assessment. rewrite <- Hflag. split; [reflexivity|].
  eexists. repeat split.
Qed.

End QuickAssessment.

Lemma quick_assessment_flag_only_witness :
  let request1 := {| qr_business_profile_id := "bp-1";
                     qr_assessment_type := "quick"; industry_standard := true |} in
  let request2 := {| qr_business_profile_id := "bp-2";
                     qr_assessment_type := "full"; industry_standard := true |} in
  industry_standard request1 = industry_standard request2
  /\ quick_assessment (H := InMemory.models) request1 "alice"
     = quick_assessment (H := InMemory.models) request2 "bob"
  /\ exists response : QuickAssessmentResponse,
       quick_assessment (H := InMemory.models) request1 "alice" = Return response
       /\ run InMemory.backend (quick_assessment request1 "alice") InMemory.sample_db
          = (Returned response, InMemory.sample_db, [])
       /\ run InMemory.backend (quick_assessment request2 "bob") InMemory.sample_db
          = (Returned response, InMemory.sample_db, []).
Proof.
  split; [reflexivity|].
  apply (quick_assessment_flag_only (H := InMemory.models) _ _ "alice" "bob"
           InMemory.DB InMemory.backend InMemory.sample_db).
  reflexivity.
Defined.

(** ** POST / and POST /start *)

Section CreateStart.
Context `{Models}.

(** C8. POST / and POST /start behave alike: for every session-creation
    request and caller both await the service's start_assessment_session
    once, with the caller, the session type and the business profile id of
    the request, and return what it returns; both routes answer with
    status 201 and ask for the same permission; against every backend the
    two requests end the same way. *)
Theorem create_assessment_is_start_assessment
    (session_data : AssessmentSessionCreate) (current_user : UserWithRoles) :
  create_assessment session_data current_user
  = start_assessment session_data current_user
  /\ start_assessment session_data current_user
     = Await (AssessmentService.start_assessment_session current_user
                (session_type session_data) (business_profile_id session_data))
             (fun session => Return session)
  /\ status_code create_assessment_route = 201%Z
  /\ status_code start_assessment_route = 201%Z
  /\ permission create_assessment_route = permission start_assessment_route
  /\ forall (DB : Type) (backend : Backend DB) (db : DB),
       run backend (create_assessment session_data current_user) db
       = run backend (start_assessment session_data current_user) db.
Proof. repeat split. Qed.

End CreateStart.

(** ** PUT /{session_id}/response and POST /{session_id}/responses *)

Section UpdateResponse.
Context `{Models}.

(** Whenever the value read under question_id is false in Python's sense,
    the loosely typed handler is the bare [raise]. *)
Lemma update_responses_rejects (session_id : UUID)
    (response_data : list (string * value)) (current_user : UserWithRoles) :
  truthy (Py.get "question_id" response_data) = false ->
  update_responses session_id response_data current_user = Raise question_id_required.
Proof. unfold update_responses. now intros ->. Qed.

Lemma update_responses_delegates (session_id : UUID)
    (response_data : list (string * value)) (current_user : UserWithRoles) :
  truthy (Py.get "question_id" response_data) = true ->
  update_responses session_id response_data current_user
  = Await (AssessmentService.update_assessment_response current_user session_id
             (Py.get "question_id" response_data) (Py.get "response" response_data))
          (fun session => Return session).
Proof. unfold update_responses. now intros ->. Qed.

(** C4. When question_id is absent from the payload, POST
    /{session_id}/responses raises Bad-Request (400, "question_id is
    required"); against every backend the request ends with that error, no
    service method is awaited (so update_assessment_response is never
    invoked) and the database state is the one the request started from. *)
Theorem update_responses_without_question_id
    (session_id : UUID) (response_data : list (string * value))
    (current_user : UserWithRoles) (DB : Type) (backend : Backend DB) (db : DB) :
  lookup "question_id" response_data = None ->
  update_responses session_id response_data current_user
  = Raise (HTTPException 400 "question_id is required")
  /\ run backend (update_responses session_id response_data current_user) db
     = (Raised (HTTPException 400 "question_id is required"), db, []).
Proof.
  intros Habsent.
  rewrite update_responses_rejects by now rewrite (get_absent _ _ Habsent).
  split; reflexivity.
Qed.

(** C5, as amended. When question_id is present in the payload and its
    value is true in Python's sense (a non-empty string, a non-zero
    number, ...), POST /{session_id}/responses is PUT
    /{session_id}/response for the same session id, question id and
    response value (the value under response, [None] when that key is
    missing): one await of update_assessment_response with the caller, the
    session id, the question id and the response, whose result is
    returned; against every backend the two requests end the same way. *)
Theorem update_responses_is_update_response
    (session_id : UUID) (response_data : list (string * value))
    (current_user : UserWithRoles) (qid : value) :
  lookup "question_id" response_data = Some qid ->
  truthy qid = true ->
  let typed := {| question_id := qid;
                  response := Py.get "response" response_data |} in
  update_responses session_id response_data current_user
  = update_response session_id typed current_user
  /\ update_response session_id typed current_user
     = Await (AssessmentService.update_assessment_response current_user session_id
                qid (Py.get "response" response_data))
             (fun session => Return session)
  /\ forall (DB : Type) (backend : Backend DB) (db : DB),
       run backend (update_responses session_id response_data current_user) db
       = run backend (update_response session_id typed current_user) db.
Proof.
  intros Hpresent Htrue typed.
  assert (E : update_responses session_id response_data current_user
              = update_response session_id typed current_user).
  { rewrite update_responses_delegates; rewrite (get_present _ _ _ Hpresent); auto. }
  split; [exact E|]. split; [reflexivity|].
  intros DB backend db. now rewrite E.
Qed.

(** C9. When question_id is present in the payload but its value is false
    in Python's sense (the empty string, 0, [None], [False], and likewise
    0.0, an empty list or dict: [falsy_values]), POST
    /{session_id}/responses raises the same Bad-Request as for a payload
    without the key; nothing is handed to the service and the database
    state is untouched. *)
Theorem update_responses_falsy_question_id
    (session_id : UUID) (response_data : list (string * value))
    (current_user : UserWithRoles) (qid : value)
    (DB : Type) (backend : Backend DB) (db : DB) :
  lookup "question_id" response_data = Some qid ->
  truthy qid = false ->
  update_responses session_id response_data current_user
  = Raise (HTTPException 400 "question_id is required")
  /\ update_responses session_id response_data current_user
     = update_responses session_id (filter (fun kv => negb (String.eqb (fst kv) "question_id")) response_data)
         current_user
  /\ run backend (update_responses session_id response_data current_user) db
     = (Raised (HTTPException 400 "question_id is required"), db, []).
Proof.
  intros Hpresent Hfalse.
  assert (E : update_responses session_id response_data current_user
              = Raise question_id_required).
  { apply update_responses_rejects. now rewrite (get_present _ _ _ Hpresent). }
  rewrite E. repeat split.
  symmetry. apply update_responses_rejects.
  rewrite get_absent; [reflexivity|].
  clear. induction response_data as [|[k v] d IH]; simpl; [reflexivity|].
  destruct (String.eqb k "question_id") eqn:Ek; simpl; [exact IH|].
  now rewrite Ek.
Qed.

End UpdateResponse.

Lemma update_responses_without_question_id_witness :
  let payload := [("response", VStr "yes")] in
  lookup "question_id" payload = None
  /\ update_responses (H := InMemory.models) 1%N payload "alice"
     = Raise (HTTPException 400 "question_id is required")
  /\ run InMemory.backend (update_responses 1%N payload "alice") InMemory.sample_db
     = (Raised (HTTPException 400 "question_id is required"), InMemory.sample_db, []).
Proof.
  split; [reflexivity|].
  apply (update_responses_without_question_id (H := InMemory.models)).
  reflexivity.
Defined.

Lemma update_responses_is_update_response_witness :
  let payload := [("question_id", VStr "q1"); ("response", VStr "yes")] in
  lookup "question_id" payload = Some (VStr "q1")
  /\ truthy (VStr "q1") = true
  /\ update_responses (H := InMemory.models) 1%N payload "alice"
     = update_response 1%N {| question_id := VStr "q1"; response := VStr "yes" |} "alice".
Proof.
  split; [reflexivity|]. split; [reflexivity|].
  apply (update_responses_is_update_response (H := InMemory.models) 1%N
           [("question_id", VStr "q1"); ("response", VStr "yes")] "alice" (VStr "q1"));
    reflexivity.
Defined.

Lemma update_responses_falsy_question_id_witness :
  let payload := [("question_id", VInt 0); ("response", VStr "yes")] in
  lookup "question_id" payload = Some (VInt 0)
  /\ truthy (VInt 0) = false
  /\ run InMemory.backend (update_responses 1%N payload "alice") InMemory.sample_db
     = (Raised (HTTPException 400 "question_id is required"), InMemory.sample_db, []).
Proof.
  split; [reflexivity|]. split; [reflexivity|].
  apply (update_responses_falsy_question_id (H := InMemory.models) 1%N
           [("question_id", VInt 0); ("response", VStr "yes")] "alice" (VInt 0));
    reflexivity.
Defined.

(** C5 as stated fails for a question_id that is present but empty: the
    loosely typed route answers Bad-Request and awaits nothing, while the
    typed route, given the same session id, question id and response,
    awaits the service and returns the updated session. *)
Lemma update_responses_empty_question_id_differs :
  let payload := [("question_id", VStr ""); ("response", VStr "yes")] in
  let typed := {| question_id := VStr ""; response := VStr "yes" |} in
  lookup "question_id" payload = Some (VStr "")
  /\ run InMemory.backend (update_responses 1%N payload "alice") InMemory.sample_db
     = (Raised (HTTPException 400 "question_id is required"), InMemory.sample_db, [])
  /\ snd (run InMemory.backend (update_response 1%N typed "alice") InMemory.sample_db)
     = [Awaited (AssessmentService.update_assessment_response
                   "alice" 1%N (VStr "") (VStr "yes"))]
  /\ update_responses (H := InMemory.models) 1%N payload "alice"
     <> update_response 1%N typed "alice"
  /\ run InMemory.backend (update_responses 1%N payload "alice") InMemory.sample_db
     <> run InMemory.backend (update_response 1%N typed "alice") InMemory.sample_db.
Proof.
  cbv zeta. repeat split; try reflexivity.
  - discriminate.
  - intros E. apply (f_equal snd) in E. discriminate E.
Qed.

(** ** GET /current *)

Section CurrentSession.
Context `{Models}.
Context {DB : Type} (backend : Backend DB).

(** An exception of the service ends GET /current with that exception. *)
Lemma get_current_session_propagates (current_user : UserWithRoles)
    (db db1 : DB) (e : exn) :
  service backend (AssessmentService.get_current_assessment_session current_user) db
  = (Raised e, db1) ->
  run backend (get_current_session current_user) db
  = (Raised e, db1,
     [Awaited (AssessmentService.get_current_assessment_session current_user)]).
Proof. intros E. cbn. now rewrite E. Qed.

(** C6. GET /current awaits get_current_assessment_session for the caller.
    When that call returns a session, the request returns this session;
    and, the call having returned, the request fails with Not-Found (404,
    "No active assessment session") if and only if it returned no
    session. *)
Theorem get_current_session_found_or_404 (current_user : UserWithRoles)
    (db db1 : DB) (found : option AssessmentSession) :
  service backend (AssessmentService.get_current_assessment_session current_user) db
  = (Returned found, db1) ->
  let request := run backend (get_current_session current_user) db in
  (forall session, found = Some session ->
     request = (Returned (Some session), db1,
                [Awaited (AssessmentService.get_current_assessment_session current_user)]))
  /\ (found = None ->
      request = (Raised (HTTPException 404 "No active assessment session"), db1,
                 [Awaited (AssessmentService.get_current_assessment_session current_user)]))
  /\ (fst (fst request) = Raised (HTTPException 404 "No active assessment session")
      <-> found = None).
Proof.
  intros E request. subst request. cbn. rewrite E.
  destruct found as [session|]; cbn.
  - split; [now intros ? [= <-]|]. split; [discriminate|]. split; discriminate.
  - split; [discriminate|]. split; [reflexivity|]. split; reflexivity.
Qed.

End CurrentSession.

Lemma get_current_session_found_or_404_witness :
  let request := run InMemory.backend (get_current_session "carol") InMemory.sample_db in
  service InMemory.backend (AssessmentService.get_current_assessment_session "carol")
          InMemory.sample_db
  = (Returned None, InMemory.sample_db)
  /\ (fst (fst request) = Raised (HTTPException 404 "No active assessment session")
      <-> @None InMemory.Session = None).
Proof.
  split; [reflexivity|].
  apply (get_current_session_found_or_404 InMemory.backend "carol"
           InMemory.sample_db InMemory.sample_db None).
  reflexivity.
Defined.

(** ** Sessions that cannot be found *)

Section NotFound.
Context `{Models}.
Context {DB : Type} (backend : Backend DB).

(** POST /{session_id}/complete hands back what the service hands back. *)
Lemma complete_assessment_forwards (session_id : UUID)
    (current_user : UserWithRoles) (db : DB) :
  let c := AssessmentService.complete_assessment_session current_user session_id in
  run backend (complete_assessment session_id current_user) db
  = (fst (service backend c db), snd (service backend c db), [Awaited c]).
Proof.
  cbn. destruct (service backend _ db) as [[r|e] db1]; reflexivity.
Qed.

(** GET /{session_id} returns a session only when the service found it
    for this caller and this id. *)
Lemma get_assessment_session_returns_found (session_id : UUID)
    (current_user : UserWithRoles) (db : DB) (answer : option AssessmentSession) :
  fst (fst (run backend (get_assessment_session session_id current_user) db))
  = Returned answer ->
  exists session,
    answer = Some session
    /\ fst (service backend
              (AssessmentService.get_assessment_session current_user session_id) db)
       = Returned (Some session).
Proof.
  cbn. destruct (service backend _ db) as [[[session|]|e] db1]; cbn;
    try discriminate.
  intros [= <-]. now exists session.
Qed.

(** When the service finds no session for the caller under the id, GET
    /{session_id} and GET /{session_id}/recommendations raise Not-Found
    and the frameworks are not read. *)
Lemma lookup_none_not_found (session_id : UUID)
    (current_user : UserWithRoles) (db db1 : DB) :
  service backend (AssessmentService.get_assessment_session current_user session_id) db
  = (Returned None, db1) ->
  let lookup_call := AssessmentService.get_assessment_session current_user session_id in
  run backend (get_assessment_session session_id current_user) db
  = (Raised (HTTPException 404 "Assessment session not found"), db1,
     [Awaited lookup_call])
  /\ run backend (get_assessment_recommendations session_id current_user) db
     = (Raised (HTTPException 404 "Assessment session not found"), db1,
        [Awaited lookup_call]).
Proof.
  intros E lookup_call. subst lookup_call.
  split; cbn; now rewrite E.
Qed.

End NotFound.

(** In the store, the lookup finds nothing exactly when no session under
    the id belongs to the user: there is none at all, or each belongs to
    somebody else. *)
Lemma find_session_none (user : string) (session_id : UUID) (db : InMemory.DB) :
  InMemory.find_session user session_id db = None
  <-> forall s, In s (InMemory.sessions db) ->
                InMemory.s_id s = session_id -> InMemory.s_user s <> user.
Proof.
  unfold InMemory.find_session. split.
  - intros Hnone s Hin Hid Huser.
    apply (find_none _ _ Hnone) in Hin. unfold InMemory.owned in Hin.
    now rewrite Hid, Huser, N.eqb_refl, String.eqb_refl in Hin.
  - intros Hforeign.
    destruct (find (InMemory.owned user session_id) (InMemory.sessions db))
      as [s|] eqn:E; [|reflexivity].
    apply find_some in E as [Hin Howned]. unfold InMemory.owned in Howned.
    apply andb_true_iff in Howned as [Hid Huser].
    apply N.eqb_eq in Hid. apply String.eqb_eq in Huser.
    now elim (Hforeign s Hin Hid).
Qed.

(** A session the lookup finds is the caller's session under that id. *)
Lemma find_session_owned (user : string) (session_id : UUID) (db : InMemory.DB)
    (s : InMemory.Session) :
  InMemory.find_session user session_id db = Some s ->
  InMemory.s_id s = session_id /\ InMemory.s_user s = user.
Proof.
  unfold InMemory.find_session. intros E.
  apply find_some in E as [_ Howned]. unfold InMemory.owned in Howned.
  apply andb_true_iff in Howned as [Hid Huser].
  apply N.eqb_eq in Hid. apply String.eqb_eq in Huser. now split.
Qed.

(** Whatever session GET /{session_id} or POST /{session_id}/complete
    returns over the store is the caller's own session under the id of the
    path. *)
Lemma returned_session_is_owned (user : string) (session_id : UUID)
    (db : InMemory.DB) (s : InMemory.Session) :
  fst (fst (run InMemory.backend (get_assessment_session session_id user) db))
  = Returned (Some s)
  \/ fst (fst (run InMemory.backend (complete_assessment session_id user) db))
     = Returned (Some s) ->
  InMemory.s_id s = session_id /\ InMemory.s_user s = user.
Proof.
  cbn. destruct (InMemory.find_session user session_id db) as [found|] eqn:E; cbn.
  - apply find_session_owned in E.
    intros [[= <-] | [= <-]]; [exact E | exact E].
  - intros [H | H]; discriminate H.
Qed.

(** C3. Over the store of the service, for every session id under which
    the caller owns no session (no session has the id, or each session
    with the id belongs to somebody else), GET /{session_id}, GET
    /{session_id}/recommendations and POST /{session_id}/complete each end
    with Not-Found (404); nothing is returned, so no data of another
    session either, and the store is left as it was.  The two GET handlers
    raise the 404 themselves on the [None] of the lookup
    ([lookup_none_not_found], for every backend); complete has no check of
    its own and passes on the Not-Found of the service
    ([complete_assessment_forwards]). *)
Theorem missing_session_not_found (db : InMemory.DB) (user : string)
    (session_id : UUID) :
  (forall s, In s (InMemory.sessions db) ->
             InMemory.s_id s = session_id -> InMemory.s_user s <> user) ->
  run InMemory.backend (get_assessment_session session_id user) db
  = (Raised (HTTPException 404 "Assessment session not found"), db,
     [Awaited (AssessmentService.get_assessment_session user session_id)])
  /\ run InMemory.backend (get_assessment_recommendations session_id user) db
     = (Raised (HTTPException 404 "Assessment session not found"), db,
        [Awaited (AssessmentService.get_assessment_session user session_id)])
  /\ run InMemory.backend (complete_assessment session_id user) db
     = (Raised (HTTPException 404 "Assessment session not found"), db,
        [Awaited (AssessmentService.complete_assessment_session user session_id)]).
Proof.
  intros Hforeign. apply find_session_none in Hforeign.
  assert (E : service InMemory.backend
                (AssessmentService.get_assessment_session user session_id) db
              = (Returned None, db)) by (cbn; now rewrite Hforeign).
  destruct (lookup_none_not_found InMemory.backend _ _ _ _ E) as [Hget Hrec].
  split; [exact Hget|]. split; [exact Hrec|].
  rewrite complete_assessment_forwards. cbn. now rewrite Hforeign.
Qed.

Lemma missing_session_not_found_witness :
  (forall s, In s (InMemory.sessions InMemory.sample_db) ->
             InMemory.s_id s = 2%N -> InMemory.s_user s <> "alice")
  /\ run InMemory.backend (get_assessment_session 2%N "alice") InMemory.sample_db
     = (Raised (HTTPException 404 "Assessment session not found"), InMemory.sample_db,
        [Awaited (AssessmentService.get_assessment_session "alice" 2%N)])
  /\ run InMemory.backend (get_assessment_recommendations 2%N "alice") InMemory.sample_db
     = (Raised (HTTPException 404 "Assessment session not found"), InMemory.sample_db,
        [Awaited (AssessmentService.get_assessment_session "alice" 2%N)])
  /\ run InMemory.backend (complete_assessment 2%N "alice") InMemory.sample_db
     = (Raised (HTTPException 404 "Assessment session not found"), InMemory.sample_db,
        [Awaited (AssessmentService.complete_assessment_session "alice" 2%N)]).
Proof.
  assert (Hforeign : forall s, In s (InMemory.sessions InMemory.sample_db) ->
                       InMemory.s_id s = 2%N -> InMemory.s_user s <> "alice").
  { intros s [<- | [<- | []]]; cbn; intros Hid; discriminate. }
  split; [exact Hforeign|].
  exact (missing_session_not_found InMemory.sample_db "alice" 2%N Hforeign).
Defined.

(** ** GET /{session_id}/recommendations *)

Section Recommendations.
Context `{Models}.

Lemma fold_append_if_recommended (frameworks : list ComplianceFramework)
    (recommendations : list value) :
  fold_left append_if_recommended frameworks recommendations
  = recommendations ++ spec_synthesized frameworks.
Proof.
  revert recommendations.
  induction frameworks as [|framework frameworks IH]; intros recommendations; cbn.
  - now rewrite app_nil_r.
  - rewrite IH. unfold append_if_recommended, spec_synthesized, spec_recommended,
      spec_priority. cbn.
    destruct (str_in "GDPR" (cf_name framework) || str_in "ISO" (cf_name framework));
      cbn; [now rewrite <- app_assoc | reflexivity].
Qed.

(** The loop computes the rule of the specification. *)
Lemma generated_recommendations_spec (frameworks : list ComplianceFramework) :
  generated_recommendations frameworks = spec_synthesized frameworks.
Proof. unfold generated_recommendations. now rewrite fold_append_if_recommended. Qed.

(** Which entries the rule yields: one for each framework whose name
    contains GDPR or ISO, with priority High in the first case and Medium
    otherwise. *)
Lemma spec_synthesized_entries (frameworks : list ComplianceFramework) (entry : value) :
  In entry (spec_synthesized frameworks)
  <-> exists framework,
        In framework frameworks
        /\ ((contains (cf_name framework) "GDPR"
             /\ entry = recommendation_entry framework "High")
            \/ (~ contains (cf_name framework) "GDPR"
                /\ contains (cf_name framework) "ISO"
                /\ entry = recommendation_entry framework "Medium")).
Proof.
  unfold spec_synthesized. rewrite in_map_iff. split.
  - intros [framework [<- Hin]]. apply filter_In in Hin as [Hin Hrec].
    exists framework. split; [exact Hin|].
    unfold spec_recommended, spec_priority in *.
    destruct (str_in "GDPR" (cf_name framework)) eqn:G.
    + left. split; [now apply str_in_contains | reflexivity].
    + right. cbn in Hrec. repeat split.
      * rewrite <- str_in_contains. congruence.
      * now apply str_in_contains.
  - intros [framework [Hin Hcase]]. exists framework.
    unfold spec_recommended, spec_priority. rewrite filter_In.
    destruct Hcase as [[G ->] | [NG [I ->]]].
    + apply str_in_contains in G. rewrite G. auto.
    + apply str_in_contains in I. rewrite I, orb_true_r.
      destruct (str_in "GDPR" (cf_name framework)) eqn:G; [|auto].
      apply str_in_contains in G. contradiction.
Qed.

(** A framework whose name contains neither substring gives no entry. *)
Lemma spec_synthesized_omits (framework : ComplianceFramework)
    (frameworks : list ComplianceFramework) :
  ~ contains (cf_name framework) "GDPR" ->
  ~ contains (cf_name framework) "ISO" ->
  spec_synthesized (framework :: frameworks) = spec_synthesized frameworks.
Proof.
  intros NG NI. unfold spec_synthesized, spec_recommended. cbn.
  destruct (str_in "GDPR" (cf_name framework)) eqn:G;
    [apply str_in_contains in G; contradiction|].
  destruct (str_in "ISO" (cf_name framework)) eqn:I;
    [apply str_in_contains in I; contradiction|].
  reflexivity.
Qed.

Context {DB : Type} (backend : Backend DB).

(** What the request yields once the session is found. *)
Lemma get_assessment_recommendations_found (session_id : UUID)
    (current_user : UserWithRoles) (db db1 : DB) (session : AssessmentSession) :
  service backend (AssessmentService.get_assessment_session current_user session_id) db
  = (Returned (Some session), db1) ->
  let lookup_call := AssessmentService.get_assessment_session current_user session_id in
  run backend (get_assessment_recommendations session_id current_user) db
  = (Returned
       (VDict [("recommendations",
                if truthy (session_recommendations session)
                then session_recommendations session
                else VList (spec_synthesized
                              (filter is_active (compliance_frameworks backend db1))))]),
     db1, [Awaited lookup_call; Executed]).
Proof.
  intros E lookup_call. subst lookup_call. cbn. rewrite E. cbn.
  now rewrite generated_recommendations_spec.
Qed.

(** C2, as amended. For an existing session owned by the caller (the
    service returns it): if the session carries a non-empty persisted
    recommendations list, that list is returned verbatim; if it carries
    none ([None]) or an empty one, the answer holds exactly one synthesized
    entry for each active framework whose name contains GDPR (priority
    "High") or else ISO (priority "Medium"), in the order of the query and
    with the description "Recommended based on your business profile";
    active frameworks matching neither and inactive frameworks give no
    entry. *)
Theorem recommendations_persisted_or_synthesized (session_id : UUID)
    (current_user : UserWithRoles) (db db1 : DB) (session : AssessmentSession) :
  service backend (AssessmentService.get_assessment_session current_user session_id) db
  = (Returned (Some session), db1) ->
  let lookup_call := AssessmentService.get_assessment_session current_user session_id in
  let request := run backend (get_assessment_recommendations session_id current_user) db in
  let active := filter is_active (compliance_frameworks backend db1) in
  (forall persisted,
     session_recommendations session = VList persisted -> persisted <> [] ->
     request = (Returned (VDict [("recommendations", VList persisted)]), db1,
                [Awaited lookup_call; Executed]))
  /\ (session_recommendations session = VNone
      \/ session_recommendations session = VList [] ->
      request = (Returned (VDict [("recommendations", VList (spec_synthesized active))]),
                 db1, [Awaited lookup_call; Executed]))
  /\ spec_synthesized active
     = map (fun framework =>
              VDict [ ("framework",
                       VDict [ ("id", VStr (str (cf_id framework)));
                               ("name", VStr (cf_name framework));
                               ("description", cf_description framework) ]);
                      ("priority",
                       VStr (if str_in "GDPR" (cf_name framework)
                             then "High" else "Medium"));
                      ("description",
                       VStr "Recommended based on your business profile") ])
           (filter (fun framework =>
                      str_in "GDPR" (cf_name framework)
                      || str_in "ISO" (cf_name framework)) active)
  /\ (forall framework,
        In framework active ->
        ~ contains (cf_name framework) "GDPR" ->
        ~ contains (cf_name framework) "ISO" ->
        forall priority,
          ~ In (recommendation_entry framework priority) (spec_synthesized active)).
Proof.
  intros E lookup_call request active. subst request.
  rewrite (get_assessment_recommendations_found _ _ _ _ _ E). fold active.
  split; [|split; [|split]].
  - intros persisted -> Hne. destruct persisted; [contradiction | reflexivity].
  - intros [-> | ->]; reflexivity.
  - reflexivity.
  - intros framework _ NG NI priority Hin.
    apply spec_synthesized_entries in Hin as [other [_ Hcase]].
    assert (Hname : cf_name other = cf_name framework).
    { destruct Hcase as [[_ Eq] | [_ [_ Eq]]];
        unfold recommendation_entry in Eq; now injection Eq. }
    rewrite Hname in Hcase.
    destruct Hcase as [[G _] | [_ [I _]]]; contradiction.
Qed.

(** C10. For an existing session owned by the caller whose persisted
    recommendations list is present but empty, the answer is not taken
    from the session: the active frameworks are read and the answer lists
    one synthesized entry (id, name and description of the framework,
    priority "High" for GDPR and "Medium" for ISO, the fixed description)
    for each active framework whose name contains GDPR or ISO, in the
    order of the query.  The answer therefore differs from the persisted
    empty list as soon as one active framework matches, and only then. *)
Theorem empty_recommendations_fall_through (session_id : UUID)
    (current_user : UserWithRoles) (db db1 : DB) (session : AssessmentSession) :
  service backend (AssessmentService.get_assessment_session current_user session_id) db
  = (Returned (Some session), db1) ->
  session_recommendations session = VList [] ->
  let lookup_call := AssessmentService.get_assessment_session current_user session_id in
  let active := filter is_active (compliance_frameworks backend db1) in
  let synthesized :=
    map (fun framework =>
           VDict [ ("framework",
                    VDict [ ("id", VStr (str (cf_id framework)));
                            ("name", VStr (cf_name framework));
                            ("description", cf_description framework) ]);
                   ("priority",
                    VStr (if str_in "GDPR" (cf_name framework)
                          then "High" else "Medium"));
                   ("description",
                    VStr "Recommended based on your business profile") ])
        (filter (fun framework =>
                   str_in "GDPR" (cf_name framework)
                   || str_in "ISO" (cf_name framework)) active) in
  run backend (get_assessment_recommendations session_id current_user) db
  = (Returned (VDict [("recommendations", VList synthesized)]), db1,
     [Awaited lookup_call; Executed])
  /\ (VList synthesized <> session_recommendations session
      <-> exists framework,
            In framework active
            /\ (contains (cf_name framework) "GDPR"
                \/ contains (cf_name framework) "ISO")).
Proof.
  intros E Hempty lookup_call active synthesized.
  split.
  - rewrite (get_assessment_recommendations_found _ _ _ _ _ E), Hempty. reflexivity.
  - rewrite Hempty. subst synthesized.
    set (matching := filter _ active). split.
    + intros Hdiffer.
      destruct matching as [|framework rest] eqn:Ematching; [now elim Hdiffer|].
      assert (Hin : In framework matching) by (rewrite Ematching; now left).
      apply filter_In in Hin as [Hin Hmatch]. exists framework. split; [exact Hin|].
      apply orb_true_iff in Hmatch as [G|I]; [left|right]; now apply str_in_contains.
    + intros [framework [Hin Hmatch]].
      assert (Hfiltered : In framework matching).
      { apply filter_In. split; [exact Hin|]. apply orb_true_iff.
        destruct Hmatch as [G|I]; [left|right]; now apply str_in_contains. }
      destruct matching as [|first rest]; [contradiction|]. discriminate.
Qed.

End Recommendations.

Lemma recommendations_persisted_or_synthesized_witness :
  service InMemory.backend (AssessmentService.get_assessment_session "bob" 2%N)
          InMemory.sample_db
  = (Returned (Some InMemory.bob_session), InMemory.sample_db)
  /\ run InMemory.backend (get_assessment_recommendations 2%N "bob") InMemory.sample_db
     = (Returned (VDict [("recommendations",
                          VList [VDict [("priority", VStr "Low")]])]),
        InMemory.sample_db,
        [Awaited (AssessmentService.get_assessment_session "bob" 2%N); Executed]).
Proof.
  split; [reflexivity|].
  apply (proj1 (recommendations_persisted_or_synthesized InMemory.backend 2%N "bob"
                  InMemory.sample_db InMemory.sample_db InMemory.bob_session
                  eq_refl));
    [reflexivity | discriminate].
Defined.

Lemma empty_recommendations_fall_through_witness :
  let answer :=
    VList [ recommendation_entry (InMemory.framework_row "f1" "GDPR Foo" true) "High";
            recommendation_entry (InMemory.framework_row "f3" "ISO 9000" true) "Medium" ] in
  service InMemory.backend (AssessmentService.get_assessment_session "alice" 1%N)
          InMemory.sample_db
  = (Returned (Some InMemory.alice_session), InMemory.sample_db)
  /\ session_recommendations InMemory.alice_session = VList []
  /\ run InMemory.backend (get_assessment_recommendations 1%N "alice") InMemory.sample_db
     = (Returned (VDict [("recommendations", answer)]), InMemory.sample_db,
        [Awaited (AssessmentService.get_assessment_session "alice" 1%N); Executed])
  /\ answer <> session_recommendations InMemory.alice_session.
Proof.
  cbv zeta. split; [reflexivity|]. split; [reflexivity|].
  pose proof (empty_recommendations_fall_through InMemory.backend 1%N "alice"
                InMemory.sample_db InMemory.sample_db InMemory.alice_session
                eq_refl eq_refl) as [Hrun Hdiffer].
  split; [exact Hrun|].
  apply Hdiffer. exists (InMemory.framework_row "f1" "GDPR Foo" true).
  split; [left; reflexivity|]. left. apply str_in_contains. reflexivity.
Defined.

(** The example of the specification: of the active frameworks GDPR Foo,
    Privacy Act, ISO 9000 and Other, the first gives an entry with priority
    High, the third one with priority Medium, the others none; the inactive
    ISO 27001 is not considered. *)
Example generated_recommendations_sample :
  generated_recommendations (filter is_active (InMemory.frameworks InMemory.sample_db))
  = [ recommendation_entry (InMemory.framework_row "f1" "GDPR Foo" true) "High";
      recommendation_entry (InMemory.framework_row "f3" "ISO 9000" true) "Medium" ].
Proof. reflexivity. Qed.

(** C2 as stated fails for a session whose persisted list is empty:
    alice's session carries the list [[]], yet the answer is not that list
    but the two entries synthesized from the active frameworks. *)
Lemma persisted_empty_list_not_returned :
  service InMemory.backend (AssessmentService.get_assessment_session "alice" 1%N)
          InMemory.sample_db
  = (Returned (Some InMemory.alice_session), InMemory.sample_db)
  /\ session_recommendations InMemory.alice_session = VList []
  /\ fst (fst (run InMemory.backend (get_assessment_recommendations 1%N "alice")
                   InMemory.sample_db))
     = Returned
         (VDict [("recommendations",
                  VList [ recommendation_entry
                            (InMemory.framework_row "f1" "GDPR Foo" true) "High";
                          recommendation_entry
                            (InMemory.framework_row "f3" "ISO 9000" true) "Medium" ])])
  /\ fst (fst (run InMemory.backend (get_assessment_recommendations 1%N "alice")
                   InMemory.sample_db))
     <> Returned (VDict [("recommendations",
                          session_recommendations InMemory.alice_session)]).
Proof. repeat split; try reflexivity. discriminate. Qed.

(** * Further properties of the router *)

(** ** Every request, whatever its route *)

Section AnyRequest.
Context `{Models}.
Context {DB : Type} (backend : Backend DB).

(** Splits a statement about [handler_of r] into the routes and, per
    route, into the ways the awaited service call can end. *)
Ltac by_route r db :=
  destruct r; cbn [handler_of];
  unfold quick_assessment, list_assessments, create_assessment, start_assessment,
    get_current_session, get_questions, update_response, update_responses,
    get_assessment_session, get_assessment_recommendations, complete_assessment;
  try match goal with |- context [truthy ?v] => destruct (truthy v) end;
  cbn [negb run];
  try match goal with
      | |- context [service backend ?c db] =>
          let res := fresh "res" in
          let e := fresh "e" in
          let db1 := fresh "db1" in
          destruct (service backend c db) as [[res|e] db1] eqn:Eservice;
          [ cbn in res;
            match type of res with
            | option _ => destruct res as [session|]
            | _ => idtac
            end
          | ]
      end;
  cbn.

(** X1. A request awaits the service at most once and reads the framework
    table at most once: its trace is empty (only POST /quick and a
    rejected POST /{session_id}/responses), one service call, or one
    service call followed by the framework query (only GET
    /{session_id}/recommendations). *)
Theorem request_trace_shape (r : request) (current_user : UserWithRoles) (db : DB) :
  let trace := snd (run backend (handler_of r current_user) db) in
  (trace = []
   /\ ((exists body, r = POST_quick body)
       \/ (exists session_id response_data, r = POST_responses session_id response_data)))
  \/ (exists c, trace = [Awaited c])
  \/ (exists c session_id, r = GET_recommendations session_id
                           /\ trace = [Awaited c; Executed]).
Proof.
  by_route r db; eauto 8.
Qed.

(** X2. The router never writes to the database itself: after a request
    the database state is the one it started from when no service method
    was awaited, and otherwise the state the one awaited service call
    left, also when that call or the handler raised. *)
Theorem request_state_is_service_state (r : request) (current_user : UserWithRoles)
    (db : DB) :
  let '(_, db_after, trace) := run backend (handler_of r current_user) db in
  match trace with
  | [] => db_after = db
  | Awaited c :: _ => db_after = snd (service backend c db)
  | Executed :: _ => False
  end.
Proof.
  by_route r db; try reflexivity; now rewrite Eservice.
Qed.

(** X3. The errors a request can end with, on every route that does not
    read the framework table (all but GET /{session_id}/recommendations,
    whose query and loop over the rows may fail on their own): an
    exception of the one awaited service call, passed on as it is;
    Bad-Request "question_id is required", only on POST
    /{session_id}/responses; Not-Found "No active assessment session",
    only on GET /current; Not-Found "Assessment session not found", only
    on GET /{session_id}.  These handlers raise nothing else. *)
Theorem request_errors (r : request) (current_user : UserWithRoles) (db : DB)
    (e : exn) :
  (forall session_id, r <> GET_recommendations session_id) ->
  fst (fst (run backend (handler_of r current_user) db)) = Raised e ->
  (exists c, snd (run backend (handler_of r current_user) db) = [Awaited c]
             /\ fst (service backend c db) = Raised e)
  \/ (e = HTTPException 400 "question_id is required"
      /\ exists session_id response_data, r = POST_responses session_id response_data)
  \/ (e = HTTPException 404 "No active assessment session" /\ r = GET_current)
  \/ (e = HTTPException 404 "Assessment session not found"
      /\ exists session_id, r = GET_session session_id).
Proof.
  by_route r db; intros Hroute Hend;
    try (now elim (Hroute _ eq_refl));
    try discriminate Hend; injection Hend as <-;
    try (left; eexists; split; [reflexivity | now rewrite Eservice]);
    eauto 8.
Qed.

(** X4. The permission a route demands covers the service method its
    handler reaches: the four reading methods are reached only under
    assessment_list, start_assessment_session only under
    assessment_create, update_assessment_response and
    complete_assessment_session only under assessment_update. *)
Theorem request_permission_covers_call (r : request) (current_user : UserWithRoles)
    (db : DB) (c : AssessmentService.call) :
  In (Awaited c) (snd (run backend (handler_of r current_user) db)) ->
  permission (route_of r) = permission_of c.
Proof.
  by_route r db; intros Hin;
    repeat (destruct Hin as [Hin|Hin]); try contradiction; try discriminate Hin;
    injection Hin as <-; reflexivity.
Qed.

(** X5. A service method is only ever called for the caller of the request
    and, where the route has a session id, for that very session id: no
    handler acts for another user or on another session. *)
Theorem request_calls_for_caller (r : request) (current_user : UserWithRoles)
    (db : DB) (c : AssessmentService.call) :
  In (Awaited c) (snd (run backend (handler_of r current_user) db)) ->
  call_user c = current_user
  /\ (forall session_id, call_session_id c = Some session_id ->
        request_session_id r = Some session_id).
Proof.
  by_route r db; intros Hin;
    repeat (destruct Hin as [Hin|Hin]); try contradiction; try discriminate Hin;
    injection Hin as <-; split; try reflexivity; cbn; intros ? [=]; congruence.
Qed.

(** X6. Status 201 is answered on exactly the two creation routes, whose
    handlers await start_assessment_session and nothing else; every other
    route answers 200. *)
Theorem created_status_is_start (r : request) (current_user : UserWithRoles)
    (db : DB) :
  (status_code (route_of r) = 201%Z
   <-> exists session_type business_profile_id,
         snd (run backend (handler_of r current_user) db)
         = [Awaited (AssessmentService.start_assessment_session current_user
                       session_type business_profile_id)])
  /\ (status_code (route_of r) = 201%Z \/ status_code (route_of r) = 200%Z).
Proof.
  by_route r db; (split; [split|]); auto;
    try (intros [= ]); try (intros [? [? [= ]]]); eauto.
Qed.

End AnyRequest.

Lemma request_errors_witness :
  (forall session_id, GET_current <> GET_recommendations session_id)
  /\ fst (fst (run InMemory.backend (handler_of GET_current "carol") InMemory.sample_db))
     = Raised (HTTPException 404 "No active assessment session")
  /\ ((exists c, snd (run InMemory.backend (handler_of GET_current "carol")
                          InMemory.sample_db) = [Awaited c]
                 /\ fst (service InMemory.backend c InMemory.sample_db)
                    = Raised (HTTPException 404 "No active assessment session"))
      \/ (HTTPException 404 "No active assessment session"
          = HTTPException 400 "question_id is required"
          /\ exists session_id response_data,
               GET_current = POST_responses session_id response_data)
      \/ (HTTPException 404 "No active assessment session"
          = HTTPException 404 "No active assessment session"
          /\ GET_current = GET_current)
      \/ (HTTPException 404 "No active assessment session"
          = HTTPException 404 "Assessment session not found"
          /\ exists session_id, GET_current = GET_session session_id)).
Proof.
  assert (Hroute : forall session_id, GET_current <> GET_recommendations session_id)
    by (intros session_id; discriminate).
  split; [exact Hroute|]. split; [reflexivity|].
  apply (request_errors InMemory.backend GET_current "carol" InMemory.sample_db _ Hroute).
  reflexivity.
Defined.

Lemma request_permission_covers_call_witness :
  let c := AssessmentService.complete_assessment_session "bob" 2%N in
  In (Awaited c)
     (snd (run InMemory.backend (handler_of (POST_complete 2%N) "bob") InMemory.sample_db))
  /\ permission (route_of (POST_complete 2%N)) = permission_of c.
Proof.
  split; [left; reflexivity|].
  apply (request_permission_covers_call InMemory.backend (POST_complete 2%N) "bob"
           InMemory.sample_db).
  left; reflexivity.
Defined.

Lemma request_calls_for_caller_witness :
  let c := AssessmentService.get_assessment_session "alice" 2%N in
  In (Awaited c)
     (snd (run InMemory.backend (handler_of (GET_recommendations 2%N) "alice")
               InMemory.sample_db))
  /\ call_user c = "alice"
  /\ (forall session_id, call_session_id c = Some session_id ->
        request_session_id (GET_recommendations 2%N) = Some session_id).
Proof.
  split; [left; reflexivity|].
  apply (request_calls_for_caller InMemory.backend (GET_recommendations 2%N) "alice"
           InMemory.sample_db).
  left; reflexivity.
Defined.

(** ** Lists, questions and looked-up sessions *)

Section Forwarding.
Context `{Models}.
Context {DB : Type} (backend : Backend DB).

(** X7. GET / and GET /questions/{stage} end exactly as the service call
    ends: the list is returned as it is, an empty list included, any stage
    number is handed on unchecked, and an exception is passed on. *)
Theorem lists_are_forwarded (stage : Z) (current_user : UserWithRoles) (db : DB) :
  let list_call := AssessmentService.get_user_assessment_sessions current_user in
  let questions_call := AssessmentService.get_assessment_questions current_user stage in
  run backend (list_assessments current_user) db
  = (fst (service backend list_call db), snd (service backend list_call db),
     [Awaited list_call])
  /\ run backend (get_questions stage current_user) db
     = (fst (service backend questions_call db), snd (service backend questions_call db),
        [Awaited questions_call]).
Proof.
  cbn. split.
  - destruct (service backend _ db) as [[sessions|e] db1]; reflexivity.
  - destruct (service backend _ db) as [[questions|e] db1]; reflexivity.
Qed.

(** X8. When GET /current or GET /{session_id} returns, what is returned
    is a session object, never [None], and it is the one the service
    returned for this caller. *)
Theorem returned_session_is_found (session_id : UUID)
    (current_user : UserWithRoles) (db : DB) :
  let current_call := AssessmentService.get_current_assessment_session current_user in
  let lookup_call := AssessmentService.get_assessment_session current_user session_id in
  match fst (fst (run backend (get_current_session current_user) db)) with
  | Returned answer =>
      is_session answer = true /\ fst (service backend current_call db) = Returned answer
  | Raised _ => True
  end
  /\ match fst (fst (run backend (get_assessment_session session_id current_user) db)) with
     | Returned answer =>
         is_session answer = true /\ fst (service backend lookup_call db) = Returned answer
     | Raised _ => True
     end.
Proof.
  cbn. split.
  - destruct (service backend _ db) as [[[session|]|e] db1]; cbn; auto.
  - destruct (service backend _ db) as [[[session|]|e] db1]; cbn; auto.
Qed.

(** X9. GET /{session_id}/recommendations fails exactly where GET
    /{session_id} fails, in the same way: when the latter ends with an
    exception the former ends with the same exception, database state and
    trace; when the latter returns a session the former returns a dict
    whose only key is recommendations. *)
Theorem recommendations_follow_lookup (session_id : UUID)
    (current_user : UserWithRoles) (db : DB) :
  let lookup := run backend (get_assessment_session session_id current_user) db in
  let request := run backend (get_assessment_recommendations session_id current_user) db in
  match fst (fst lookup) with
  | Raised e => request = (Raised e, snd (fst lookup), snd lookup)
  | Returned _ =>
      exists recommendations,
        fst (fst request) = Returned (VDict [("recommendations", recommendations)])
        /\ snd (fst request) = snd (fst lookup)
  end.
Proof.
  cbn. destruct (service backend _ db) as [[[session|]|e] db1]; cbn; eauto.
Qed.

(** X10. Whatever the session holds under recommendations, once it is true
    in Python's sense (a non-empty list, but just as well a non-empty
    dict or string) it is returned as it is and the frameworks do not
    matter; the framework query has been executed all the same. *)
Theorem truthy_recommendations_returned (session_id : UUID)
    (current_user : UserWithRoles) (db db1 : DB) (session : AssessmentSession) :
  service backend (AssessmentService.get_assessment_session current_user session_id) db
  = (Returned (Some session), db1) ->
  truthy (session_recommendations session) = true ->
  run backend (get_assessment_recommendations session_id current_user) db
  = (Returned (VDict [("recommendations", session_recommendations session)]), db1,
     [Awaited (AssessmentService.get_assessment_session current_user session_id);
      Executed]).
Proof.
  intros E Htrue.
  rewrite (get_assessment_recommendations_found _ _ _ _ _ _ E). now rewrite Htrue.
Qed.

(** X11. Inactive frameworks never show: two database states in which the
    session lookup ends alike and the active frameworks are the same give
    the same answer, whatever inactive frameworks either holds. *)
Theorem inactive_frameworks_ignored (session_id : UUID)
    (current_user : UserWithRoles) (db db' db1 db1' : DB)
    (found : outcome (option AssessmentSession)) :
  service backend (AssessmentService.get_assessment_session current_user session_id) db
  = (found, db1) ->
  service backend (AssessmentService.get_assessment_session current_user session_id) db'
  = (found, db1') ->
  filter is_active (compliance_frameworks backend db1)
  = filter is_active (compliance_frameworks backend db1') ->
  fst (fst (run backend (get_assessment_recommendations session_id current_user) db))
  = fst (fst (run backend (get_assessment_recommendations session_id current_user) db')).
Proof.
  intros E E' Hactive. cbn. rewrite E, E'.
  destruct found as [[session|]|e]; cbn; [|reflexivity|reflexivity].
  now rewrite Hactive.
Qed.

End Forwarding.

Lemma truthy_recommendations_returned_witness :
  service InMemory.backend (AssessmentService.get_assessment_session "bob" 2%N)
          InMemory.sample_db
  = (Returned (Some InMemory.bob_session), InMemory.sample_db)
  /\ truthy (session_recommendations InMemory.bob_session) = true
  /\ run InMemory.backend (get_assessment_recommendations 2%N "bob") InMemory.sample_db
     = (Returned (VDict [("recommendations",
                          session_recommendations InMemory.bob_session)]),
        InMemory.sample_db,
        [Awaited (AssessmentService.get_assessment_session "bob" 2%N); Executed]).
Proof.
  split; [reflexivity|]. split; [reflexivity|].
  apply (truthy_recommendations_returned InMemory.backend 2%N "bob"
           InMemory.sample_db InMemory.sample_db InMemory.bob_session);
    reflexivity.
Defined.

Lemma inactive_frameworks_ignored_witness :
  let db' :=
    {| InMemory.sessions := InMemory.sessions InMemory.sample_db;
       InMemory.frameworks :=
         InMemory.framework_row "f0" "GDPR Old" false
         :: filter is_active (InMemory.frameworks InMemory.sample_db) |} in
  let lookup_call := AssessmentService.get_assessment_session "alice" 1%N in
  service InMemory.backend lookup_call InMemory.sample_db
  = (Returned (Some InMemory.alice_session), InMemory.sample_db)
  /\ service InMemory.backend lookup_call db'
     = (Returned (Some InMemory.alice_session), db')
  /\ filter is_active (compliance_frameworks InMemory.backend InMemory.sample_db)
     = filter is_active (compliance_frameworks InMemory.backend db')
  /\ fst (fst (run InMemory.backend (get_assessment_recommendations 1%N "alice")
                   InMemory.sample_db))
     = fst (fst (run InMemory.backend (get_assessment_recommendations 1%N "alice") db')).
Proof.
  cbv zeta. split; [reflexivity|]. split; [reflexivity|]. split; [reflexivity|].
  eapply (inactive_frameworks_ignored InMemory.backend 1%N "alice");
    reflexivity.
Defined.

(** ** The loop over the frameworks *)

Section FrameworkLoop.
Context `{Models}.

Lemma str_in_first_char (c : ascii) (sub s : string) :
  str_in (String c sub) s = true -> In c (list_ascii_of_string s).
Proof.
  induction s as [|b s IH]; cbn [str_in list_ascii_of_string].
  - cbn. discriminate.
  - rewrite orb_true_iff. intros [Hprefix | Hrest].
    + cbn in Hprefix. destruct (Ascii.ascii_dec c b) as [->|]; [now left | discriminate].
    + right. now apply IH.
Qed.

(** X12. Each framework is judged on its own and the order of the query is
    kept: the entries for two lists of frameworks put end to end are the
    entries for the first followed by the entries for the second. *)
Theorem generated_recommendations_app (frameworks1 frameworks2 : list ComplianceFramework) :
  generated_recommendations (frameworks1 ++ frameworks2)
  = generated_recommendations frameworks1 ++ generated_recommendations frameworks2.
Proof.
  rewrite !generated_recommendations_spec. unfold spec_synthesized.
  now rewrite filter_app, map_app.
Qed.

(** X13. A framework gives at most one entry: there are as many entries as
    frameworks whose name contains GDPR or ISO, hence never more entries
    than frameworks, and none for an empty table. *)
Theorem generated_recommendations_length (frameworks : list ComplianceFramework) :
  List.length (generated_recommendations frameworks)
  = List.length (filter (fun framework =>
                           str_in "GDPR" (cf_name framework)
                           || str_in "ISO" (cf_name framework)) frameworks)
  /\ (List.length (generated_recommendations frameworks) <= List.length frameworks)%nat
  /\ generated_recommendations [] = [].
Proof.
  rewrite generated_recommendations_spec. unfold spec_synthesized.
  rewrite length_map. repeat split.
  apply filter_length_le.
Qed.

(** X14. GDPR wins over ISO: a framework whose name contains GDPR is
    entered with priority High and never with priority Medium, also when
    the name contains ISO as well. *)
Theorem gdpr_takes_precedence (framework : ComplianceFramework)
    (frameworks : list ComplianceFramework) :
  In framework frameworks ->
  contains (cf_name framework) "GDPR" ->
  In (recommendation_entry framework "High") (generated_recommendations frameworks)
  /\ ~ In (recommendation_entry framework "Medium")
          (generated_recommendations frameworks).
Proof.
  intros Hin G. rewrite generated_recommendations_spec. split.
  - apply spec_synthesized_entries. exists framework. auto.
  - intros Hmedium. apply spec_synthesized_entries in Hmedium as [other [_ Hcase]].
    destruct Hcase as [[_ Eq] | [NG [_ Eq]]].
    + unfold recommendation_entry in Eq. discriminate Eq.
    + assert (Hname : cf_name framework = cf_name other)
        by (unfold recommendation_entry in Eq; now injection Eq).
      rewrite <- Hname in NG. contradiction.
Qed.

(** X15. The match is case-sensitive: a framework whose name has neither a
    capital G nor a capital I (gdpr, iso 27001, Privacy Act, ...) gives no
    entry. *)
Theorem lowercase_names_omitted (framework : ComplianceFramework)
    (frameworks : list ComplianceFramework) :
  ~ In "G"%char (list_ascii_of_string (cf_name framework)) ->
  ~ In "I"%char (list_ascii_of_string (cf_name framework)) ->
  generated_recommendations (framework :: frameworks)
  = generated_recommendations frameworks.
Proof.
  intros NG NI.
  change (framework :: frameworks) with ([framework] ++ frameworks).
  rewrite generated_recommendations_app.
  unfold generated_recommendations at 1. cbn. unfold append_if_recommended.
  destruct (str_in "GDPR" (cf_name framework)) eqn:G;
    [apply str_in_first_char in G; contradiction|].
  destruct (str_in "ISO" (cf_name framework)) eqn:I;
    [apply str_in_first_char in I; contradiction|].
  reflexivity.
Qed.

(** X16. The two recommendation endpoints do not share a vocabulary: POST
    /quick files its entries under "high" or "medium", the fallback of GET
    /{session_id}/recommendations under "High" or "Medium", so no priority
    of the one ever equals a priority of the other. *)
Theorem priority_vocabularies_differ (request : QuickAssessmentRequest)
    (current_user : UserWithRoles) (response : QuickAssessmentResponse)
    (frameworks : list ComplianceFramework) (r : QuickRecommendation) (entry : value) :
  quick_assessment request current_user = Return response ->
  In r (recommendations response) ->
  In entry (generated_recommendations frameworks) ->
  (priority r = "high" \/ priority r = "medium")
  /\ (entry_priority entry = VStr "High" \/ entry_priority entry = VStr "Medium")
  /\ entry_priority entry <> VStr (priority r).
Proof.
  intros Hquick Hr Hentry.
  assert (Hp : priority r = "high" \/ priority r = "medium").
  { unfold quick_assessment in Hquick. injection Hquick as <-.
    destruct (industry_standard request); cbn in Hr;
      repeat (destruct Hr as [<-|Hr]); auto; contradiction. }
  assert (He : entry_priority entry = VStr "High" \/ entry_priority entry = VStr "Medium").
  { rewrite generated_recommendations_spec in Hentry.
    apply spec_synthesized_entries in Hentry as [framework [_ Hcase]].
    destruct Hcase as [[_ ->] | [_ [_ ->]]]; cbn; auto. }
  repeat split; auto.
  destruct Hp as [-> | ->], He as [-> | ->]; discriminate.
Qed.

End FrameworkLoop.

Lemma gdpr_takes_precedence_witness :
  let both := InMemory.framework_row "f9" "ISO/GDPR bundle" true in
  let table := [InMemory.framework_row "f3" "ISO 9000" true; both] in
  In both table
  /\ contains (cf_name both) "GDPR"
  /\ In (recommendation_entry both "High") (generated_recommendations table)
  /\ ~ In (recommendation_entry both "Medium") (generated_recommendations table).
Proof.
  cbv zeta.
  assert (Hin : In (InMemory.framework_row "f9" "ISO/GDPR bundle" true)
                   [InMemory.framework_row "f3" "ISO 9000" true;
                    InMemory.framework_row "f9" "ISO/GDPR bundle" true])
    by (right; left; reflexivity).
  assert (G : contains (cf_name (InMemory.framework_row "f9" "ISO/GDPR bundle" true)) "GDPR")
    by (apply str_in_contains; reflexivity).
  split; [exact Hin|]. split; [exact G|].
  exact (gdpr_takes_precedence _ _ Hin G).
Defined.

Lemma lowercase_names_omitted_witness :
  let lower := InMemory.framework_row "f7" "gdpr and iso 27001" true in
  ~ In "G"%char (list_ascii_of_string (cf_name lower))
  /\ ~ In "I"%char (list_ascii_of_string (cf_name lower))
  /\ generated_recommendations [lower] = generated_recommendations [].
Proof.
  cbv zeta.
  assert (NG : ~ In "G"%char
                  (list_ascii_of_string
                     (cf_name (InMemory.framework_row "f7" "gdpr and iso 27001" true)))).
  { cbn. intros Hin. repeat (destruct Hin as [Hin|Hin]; [discriminate Hin|]). exact Hin. }
  assert (NI : ~ In "I"%char
                  (list_ascii_of_string
                     (cf_name (InMemory.framework_row "f7" "gdpr and iso 27001" true)))).
  { cbn. intros Hin. repeat (destruct Hin as [Hin|Hin]; [discriminate Hin|]). exact Hin. }
  split; [exact NG|]. split; [exact NI|].
  exact (lowercase_names_omitted _ [] NG NI).
Defined.

Lemma priority_vocabularies_differ_witness :
  let request := {| qr_business_profile_id := "bp-1"; qr_assessment_type := "quick";
                    industry_standard := true |} in
  let response := {| recommendations := [gdpr_recommendation; iso27001_recommendation;
                                         soc2_recommendation] |} in
  let row := InMemory.framework_row "f1" "GDPR Foo" true in
  quick_assessment (H := InMemory.models) request "alice" = Return response
  /\ In iso27001_recommendation (recommendations response)
  /\ In (recommendation_entry row "High") (generated_recommendations [row])
  /\ entry_priority (recommendation_entry row "High")
     <> VStr (priority iso27001_recommendation).
Proof.
  cbv zeta. split; [reflexivity|]. split; [right; left; reflexivity|].
  split; [left; reflexivity|].
  apply (priority_vocabularies_differ (H := InMemory.models)
           {| qr_business_profile_id := "bp-1"; qr_assessment_type := "quick";
              industry_standard := true |}
           "alice" _ [InMemory.framework_row "f1" "GDPR Foo" true]
           iso27001_recommendation
           (recommendation_entry (InMemory.framework_row "f1" "GDPR Foo" true) "High")
           eq_refl).
  - right; left; reflexivity.
  - left; reflexivity.
Defined.

(** ** The loosely typed payload *)

Section Payload.
Context `{Models}.

Lemma get_other_key (key other : string) (v : value) (d : list (string * value)) :
  other <> key -> Py.get key ((other, v) :: d) = Py.get key d.
Proof.
  intros Hne. unfold Py.get. cbn.
  now destruct (String.eqb_spec other key).
Qed.

(** X17. POST /{session_id}/responses reads the payload under question_id
    and response only: any other key is ignored, and the payload can be
    replaced by the two values read, a missing response read as [None]. *)
Theorem update_responses_reads_two_keys (session_id : UUID)
    (response_data : list (string * value)) (current_user : UserWithRoles)
    (key : string) (v : value) :
  key <> "question_id" ->
  key <> "response" ->
  update_responses session_id ((key, v) :: response_data) current_user
  = update_responses session_id response_data current_user
  /\ update_responses session_id response_data current_user
     = update_responses session_id
         [ ("question_id", Py.get "question_id" response_data);
           ("response", Py.get "response" response_data) ]
         current_user.
Proof.
  intros Hq Hr. unfold update_responses.
  rewrite !get_other_key by assumption.
  split; reflexivity.
Qed.

End Payload.

Lemma update_responses_reads_two_keys_witness :
  let payload := [("question_id", VStr "q1")] in
  "comment" <> "question_id"
  /\ "comment" <> "response"
  /\ update_responses (H := InMemory.models) 1%N
       (("comment", VStr "later") :: payload) "alice"
     = update_responses 1%N payload "alice"
  /\ update_responses (H := InMemory.models) 1%N payload "alice"
     = update_responses 1%N [("question_id", VStr "q1"); ("response", VNone)] "alice".
Proof.
  cbv zeta.
  assert (Hq : "comment" <> "question_id") by discriminate.
  assert (Hr : "comment" <> "response") by discriminate.
  split; [exact Hq|]. split; [exact Hr|].
  exact (update_responses_reads_two_keys (H := InMemory.models) 1%N
           [("question_id", VStr "q1")] "alice" "comment" (VStr "later") Hq Hr).
Defined.
